(** * shp: a shallow embedding of shp.go (the launcher / init container runtime)

    The program is modelled as a state-and-exit monad over the trace of its
    observable effects (system calls with their results, process spawns with
    their outcomes, output written to stdout).  The operating system is an
    oracle consulted with the trace so far, so that every theorem holds for
    every kernel behaviour: the kernel may answer any call either way. *)

From Stdlib Require Import String Ascii List ZArith NArith Bool Lia.
Import ListNotations.
Open Scope string_scope.

(** ** Go library pieces *)

Definition nl : string := String (ascii_of_nat 10) EmptyString.

(** [strings.Split(s, "/")]: the pieces between the separators; the empty
    string gives the one-element list of the empty string. *)
Fixpoint split_slash (s : string) : list string :=
  match s with
  | EmptyString => [EmptyString]
  | String c rest =>
      let parts := split_slash rest in
      if Ascii.eqb c "/"%char then EmptyString :: parts
      else match parts with
           | p :: ps => String c p :: ps
           | [] => [String c EmptyString]
           end
  end.

(** [strings.Join(xs, "/")] *)
Fixpoint join_slash (xs : list string) : string :=
  match xs with
  | [] => EmptyString
  | [x] => x
  | x :: rest => x ++ "/" ++ join_slash rest
  end.

(** [filepath.IsAbs] on unix: the path starts with a separator. *)
Definition is_abs (p : string) : bool :=
  match p with
  | String c _ => Ascii.eqb c "/"%char
  | EmptyString => false
  end.

(** [filepath.Clean] on unix, by Go's lexical rules: empty and [.] elements are
    dropped, [..] removes the preceding real element, is dropped at the root of
    a rooted path and kept at the front of a relative one; the empty result is
    [.] (or [/] when rooted).  The element stack is kept reversed. *)
Definition clean_step (rooted : bool) (stk : list string) (e : string) : list string :=
  if String.eqb e EmptyString then stk
  else if String.eqb e "." then stk
  else if String.eqb e ".." then
    match stk with
    | top :: below => if String.eqb top ".." then ".." :: stk else below
    | [] => if rooted then [] else [".."]
    end
  else e :: stk.

Definition clean (p : string) : string :=
  if String.eqb p EmptyString then "."
  else
    let rooted := is_abs p in
    let elems := rev (fold_left (clean_step rooted) (split_slash p) []) in
    if rooted then "/" ++ join_slash elems
    else match elems with [] => "." | _ => join_slash elems end.

(** [filepath.Join(a, b)] on unix: leading empty elements are skipped, the rest
    joined with a separator and cleaned. *)
Definition join2 (a b : string) : string :=
  if String.eqb a EmptyString then
    (if String.eqb b EmptyString then EmptyString else clean b)
  else clean (a ++ "/" ++ b).

(** [strconv.Itoa] (the fuel covers every 64-bit value). *)
Fixpoint digits_of (fuel : nat) (n : N) (acc : string) : string :=
  match fuel with
  | O => acc
  | S f =>
      let acc' := String (ascii_of_N (48 + N.modulo n 10)) acc in
      if (n <? 10)%N then acc' else digits_of f (N.div n 10) acc'
  end.

Definition itoa (z : Z) : string :=
  if (z <? 0)%Z then "-" ++ digits_of 20 (Z.to_N (- z)) EmptyString
  else digits_of 20 (Z.to_N z) EmptyString.

(** ** The operating system *)

Inductive syscall : Type :=
| SStat (path : string)                                   (* os.Stat *)
| SMkdirAll (path : string) (perm : Z)                    (* os.MkdirAll *)
| SPivotRoot (newroot putold : string)                    (* syscall.PivotRoot *)
| SChdir (path : string)                                  (* syscall.Chdir *)
| SUnmount (target : string) (flags : Z)                  (* syscall.Unmount *)
| SRemove (path : string)                                 (* os.Remove *)
| SChroot (path : string)                                 (* syscall.Chroot *)
| SMount (source target fstype : string) (flags : Z) (data : string). (* syscall.Mount *)

(** [os.Getwd] *)
Inductive getwd_result : Type :=
| GOk (dir : string)
| GErr (msg : string).

(** [exec.Cmd.Run]: either the process could not be started (for instance the
    namespace request was refused), or it ran and exited with a status. *)
Inductive run_result : Type :=
| StartFailed (msg : string)
| Exited (code : Z).

Inductive event : Type :=
| ESys (c : syscall) (err : option string)
| EGetwd (r : getwd_result)
| ERun (path : string) (args : list string) (cloneflags : Z) (r : run_result)
| EOut (s : string).

Record OS : Type := {
  os_sys : list event -> syscall -> option string;
  os_getwd : list event -> getwd_result;
  os_run : list event -> string -> list string -> Z -> run_result
}.

(** ** The effect monad: a process either goes on with a value or has exited. *)

Inductive outcome (A : Type) : Type :=
| Ret (a : A)
| Exit (code : Z).
Arguments Ret {A} a.
Arguments Exit {A} code.

Definition M (A : Type) : Type := OS -> list event -> list event * outcome A.

Definition ret {A} (a : A) : M A := fun _ tr => (tr, Ret a).

Definition bind {A B} (m : M A) (k : A -> M B) : M B :=
  fun os tr =>
    match m os tr with
    | (tr', Ret a) => k a os tr'
    | (tr', Exit c) => (tr', Exit c)
    end.

Notation "x <- m ;; k" := (bind m (fun x => k))
  (at level 61, m at next level, right associativity).
Notation "m ;;; k" := (bind m (fun _ => k))
  (at level 61, right associativity).

Definition sys (c : syscall) : M (option string) :=
  fun os tr => let r := os_sys os tr c in ((tr ++ [ESys c r])%list, Ret r).

Definition getwd : M getwd_result :=
  fun os tr => let r := os_getwd os tr in ((tr ++ [EGetwd r])%list, Ret r).

Definition print (s : string) : M unit := fun _ tr => ((tr ++ [EOut s])%list, Ret tt).

Definition println (s : string) : M unit := print (s ++ nl).

(** [os.Exit] *)
Definition exit {A} (code : Z) : M A := fun _ tr => (tr, Exit code).

(** [exec.Command(path, args...)] with optional clone flags, then [cmd.Run()]:
    start the process, wait for it; the returned Go error is [nil] exactly when
    it exited with status 0, and otherwise prints as [exit status N]. *)
Definition cmd_run (path : string) (args : list string) (cloneflags : Z)
  : M (option string) :=
  fun os tr =>
    let r := os_run os tr path args cloneflags in
    ((tr ++ [ERun path args cloneflags r])%list,
     Ret (match r with
          | StartFailed m => Some m
          | Exited c => if (c =? 0)%Z then None else Some ("exit status " ++ itoa c)
          end)).

(** [filepath.Abs] on unix *)
Definition abs (path : string) : M (string + string) :=
  if is_abs path then ret (inl (clean path))
  else wd <- getwd ;;
       match wd with
       | GOk d => ret (inl (join2 d path))
       | GErr e => ret (inr e)
       end.

(** ** shp.go *)

Definition oldRootDir : string := ".old_root".
Definition procFS : string := "proc".

(** The clone flags of [run]: CLONE_NEWUTS | CLONE_NEWPID | CLONE_NEWNS. *)
Definition CLONE_NEWUTS : Z := 67108864.
Definition CLONE_NEWPID : Z := 536870912.
Definition CLONE_NEWNS : Z := 131072.
Definition MNT_DETACH : Z := 2.

Definition usage_main : string := "usage: shp run <rootfs_path> <cmd> [options]".

(** [handle]: a non-nil error is printed and the process exits with 1. *)
Definition handle (err : option string) : M unit :=
  match err with
  | None => ret tt
  | Some m => print (nl ++ m ++ nl) ;;; exit 1
  end.

(** [validateRootfs] *)
Definition validateRootfs (rootfs : string) : M (option string) :=
  e <- sys (SStat rootfs) ;;
  match e with
  | Some m => ret (Some ("rootfs path does not exist: " ++ rootfs ++ ": " ++ m))
  | None => ret None
  end.

(** [getCmdPath]: the message it prints and the path it returns. *)
Definition cmd_path_msg (cmdPath : string) : string * string :=
  if (1 <? length (split_slash cmdPath))%nat then
    ("WARNING! Absolute path resolution for [" ++ cmdPath
       ++ "] will be done based on the new rootfs (inside container)." ++ nl,
     cmdPath)
  else
    ("INFO: Resolving command [" ++ cmdPath ++ "] inside /bin of the new rootfs." ++ nl,
     join2 "/bin/" cmdPath).

Definition getCmdPath (cmdPath : string) : M string :=
  print (fst (cmd_path_msg cmdPath)) ;;; ret (snd (cmd_path_msg cmdPath)).

(** [mountProc] *)
Definition mountProc : M (option string) :=
  sys (SMount procFS procFS procFS 0 EmptyString).

(** [PivotRootIsolator.Isolate] *)
Definition pivot_isolate (rootfs : string) : M (option string) :=
  a <- abs rootfs ;;
  match a with
  | inr e => ret (Some ("cannot get absolute path for " ++ rootfs ++ ": " ++ e))
  | inl absNewRoot =>
    let oldRoot := join2 absNewRoot oldRootDir in
    e1 <- sys (SMkdirAll oldRoot 448) ;;
    match e1 with
    | Some e => ret (Some ("cannot create old_root directory: " ++ e))
    | None =>
      e2 <- sys (SPivotRoot absNewRoot oldRoot) ;;
      match e2 with
      | Some e => ret (Some ("pivot_root failed: " ++ e))
      | None =>
        e3 <- sys (SChdir "/") ;;
        match e3 with
        | Some e => ret (Some ("chdir to / failed after pivot_root: " ++ e))
        | None =>
          e4 <- sys (SUnmount ("/" ++ oldRootDir) MNT_DETACH) ;;
          (match e4 with
           | Some e => print ("Warning: unmounting old root failed: " ++ e ++ nl)
           | None => ret tt
           end) ;;;
          e5 <- sys (SRemove ("/" ++ oldRootDir)) ;;
          (match e5 with
           | Some e => print ("Warning: removing old root directory failed: " ++ e ++ nl)
           | None => ret tt
           end) ;;;
          println "Successfully using pivot_root" ;;;
          ret None
        end
      end
    end
  end.

(** [ChrootIsolator.Isolate] *)
Definition chroot_isolate (rootfs : string) : M (option string) :=
  e1 <- sys (SChroot rootfs) ;;
  match e1 with
  | Some e => ret (Some ("chroot failed: " ++ e))
  | None =>
    e2 <- sys (SChdir "/") ;;
    match e2 with
    | Some e => ret (Some ("chdir to / failed after chroot: " ++ e))
    | None => println "Using chroot for filesystem isolation" ;;; ret None
    end
  end.

(** The message [child] prints when pivot_root reports an error. *)
Definition fallback_msg (e : string) : string :=
  "pivot_root failed: " ++ e ++ nl ++ "Falling back to chroot..." ++ nl.

(** [child] from the isolation step on (shp.go, the lines after
    [exec.Command(binPath, ...)], which itself has no effect). *)
Definition child_isolate_and_run (rootfs binPath : string) (rest : list string) : M unit :=
  err <- pivot_isolate rootfs ;;
  (match err with
   | Some e => print (fallback_msg e) ;;; (e' <- chroot_isolate rootfs ;; handle e')
   | None => ret tt
   end) ;;;
  e <- mountProc ;; handle e ;;;
  r <- cmd_run binPath rest 0 ;; handle r.

(** [child] *)
Definition child (args : list string) : M unit :=
  match args with
  | rootfs :: cmd0 :: rest =>
      v <- validateRootfs rootfs ;; handle v ;;;
      binPath <- getCmdPath cmd0 ;;
      child_isolate_and_run rootfs binPath rest
  | _ => println "usage: shp child <rootfs_path> <cmd> [options]" ;;; exit 1
  end.

(** [run] *)
Definition run (args : list string) : M unit :=
  if (length args <? 2)%nat then println usage_main ;;; exit 1
  else
    r <- cmd_run "/proc/self/exe" ("child" :: args)
           (Z.lor (Z.lor CLONE_NEWUTS CLONE_NEWPID) CLONE_NEWNS) ;;
    handle r.

(** [main], on the whole of [os.Args]. *)
Definition main (argv : list string) : M unit :=
  if (length argv <? 2)%nat then println usage_main
  else
    let sub := nth 1 argv EmptyString in
    if String.eqb sub "run" then run (skipn 2 argv)
    else if String.eqb sub "child" then child (skipn 2 argv)
    else println usage_main.

(** The exit status of a process whose [main] ended with this outcome: returning
    from [main] exits with 0. *)
Definition exit_code {A} (o : outcome A) : Z :=
  match o with
  | Ret _ => 0
  | Exit c => c
  end.

(** Running the program from an empty trace. *)
Definition exec_main (os : OS) (argv : list string) : list event * Z :=
  let (tr, o) := main argv os [] in (tr, exit_code o).

(** ** Events singled out by the claims *)

(** A call of [mount] with the procfs arguments of [mountProc]; every other
    event satisfies it trivially. *)
Definition proc_mount (ev : event) : Prop :=
  match ev with
  | ESys (SMount s t f fl d) _ =>
      s = "proc" /\ t = "proc" /\ f = "proc" /\ fl = 0%Z /\ d = EmptyString
  | _ => True
  end.

(** Neither a mount nor the launch of a program. *)
Definition no_mount_run (ev : event) : Prop :=
  match ev with
  | ESys (SMount _ _ _ _ _) _ => False
  | ERun _ _ _ _ => False
  | _ => True
  end.

(** No launch of a program. *)
Definition no_run (ev : event) : Prop :=
  match ev with
  | ERun _ _ _ _ => False
  | _ => True
  end.

(** Not a call that removes or detaches a directory. *)
Definition no_removal (ev : event) : Prop :=
  match ev with
  | ESys (SRemove _) _ => False
  | ESys (SUnmount _ _) _ => False
  | _ => True
  end.

(** ** Sample kernels *)

(** Every call succeeds and every program exits with 0. *)
Definition os_all_ok : OS := {|
  os_sys := fun _ _ => None;
  os_getwd := fun _ => GOk "/home/user";
  os_run := fun _ _ _ _ => Exited 0 |}.

(** The new root shares the filesystem of the current root: pivot_root fails
    with EINVAL, everything else succeeds, programs exit with [code]. *)
Definition os_same_fs (code : Z) : OS := {|
  os_sys := fun _ c =>
    match c with SPivotRoot _ _ => Some "invalid argument" | _ => None end;
  os_getwd := fun _ => GOk "/home/user";
  os_run := fun _ _ _ _ => Exited code |}.

(** Both pivot_root and chroot are refused. *)
Definition os_no_root_change : OS := {|
  os_sys := fun _ c =>
    match c with
    | SPivotRoot _ _ => Some "operation not permitted"
    | SChroot _ => Some "operation not permitted"
    | _ => None
    end;
  os_getwd := fun _ => GOk "/home/user";
  os_run := fun _ _ _ _ => Exited 0 |}.

(** The path [/does-not-exist] does not exist; a spawned program exits with [code]. *)
Definition os_missing_root (code : Z) : OS := {|
  os_sys := fun _ c =>
    match c with
    | SStat p => if String.eqb p "/does-not-exist"
                 then Some "stat /does-not-exist: no such file or directory" else None
    | _ => None
    end;
  os_getwd := fun _ => GOk "/home/user";
  os_run := fun _ _ _ _ => Exited code |}.

(** Every call succeeds and every program exits with [code]. *)
Definition os_status (code : Z) : OS := {|
  os_sys := fun _ _ => None;
  os_getwd := fun _ => GOk "/home/user";
  os_run := fun _ _ _ _ => Exited code |}.

(** pivot_root succeeds but both cleanup calls fail. *)
Definition os_cleanup_fails : OS := {|
  os_sys := fun _ c =>
    match c with
    | SUnmount _ _ => Some "invalid argument"
    | SRemove _ => Some "device or resource busy"
    | _ => None
    end;
  os_getwd := fun _ => GOk "/home/user";
  os_run := fun _ _ _ _ => Exited 0 |}.

(** The trace of the pivot_root strategy under [os_cleanup_fails]. *)
Definition cleanup_failure_trace : list event :=
  [ESys (SMkdirAll "/srv/root/.old_root" 448) None;
   ESys (SPivotRoot "/srv/root" "/srv/root/.old_root") None;
   ESys (SChdir "/") None;
   ESys (SUnmount "/.old_root" MNT_DETACH) (Some "invalid argument");
   EOut ("Warning: unmounting old root failed: " ++ "invalid argument" ++ nl);
   ESys (SRemove "/.old_root") (Some "device or resource busy");
   EOut ("Warning: removing old root directory failed: " ++ "device or resource busy" ++ nl);
   EOut ("Successfully using pivot_root" ++ nl)].

(** A string holds the separator [/]. *)
Fixpoint has_slash (s : string) : bool :=
  match s with
  | EmptyString => false
  | String c rest => Ascii.eqb c "/"%char || has_slash rest
  end.

(** The clone flags the launcher requests. *)
Definition launch_flags : Z := Z.lor (Z.lor CLONE_NEWUTS CLONE_NEWPID) CLONE_NEWNS.

(** ** The first version of the program (shp.go, lines 1-54)

    The same file also holds an earlier version of [main], [run], [child] and
    [handle]: no argument checks, no root path argument, and a chroot into the
    fixed directory [/home/ubuntu]. *)

Module V1.

(** [exec.Command(name)] looks [name] up at creation time, on the host, when
    [filepath.Base(name) == name], that is for [/] and for a non-empty name
    without separator; [lookpath] stands for [exec.LookPath] there.  A failed
    lookup is kept in [cmd.Err] and returned by [cmd.Run()] without starting
    anything. *)
Definition command_path (lookpath : string -> string + string) (name : string)
  : string + string :=
  if String.eqb name "/" || (negb (has_slash name) && negb (String.eqb name EmptyString))
  then lookpath name
  else inl name.

Definition usage : string := "usage: shp <cmd> [options]".

(** [run] *)
Definition run (args : list string) : M unit :=
  r <- cmd_run "/proc/self/exe" ("child" :: args) launch_flags ;;
  handle r.

(** [child]: [args[0]] on an empty slice is a Go runtime panic (index out of
    range), which exits with status 2; its message goes to stderr, which the
    trace does not record. *)
Definition child (lookpath : string -> string + string) (args : list string) : M unit :=
  match args with
  | [] => exit 2
  | name :: rest =>
      let cmd := command_path lookpath name in
      e1 <- sys (SChroot "/home/ubuntu") ;; handle e1 ;;;
      e2 <- sys (SChdir "/") ;; handle e2 ;;;
      e3 <- sys (SMount "proc" "proc" "proc" 0 EmptyString) ;; handle e3 ;;;
      match cmd with
      | inl path => r <- cmd_run path rest 0 ;; handle r
      | inr err => handle (Some err)
      end
  end.

(** [main] *)
Definition main (lookpath : string -> string + string) (argv : list string) : M unit :=
  if (length argv <? 2)%nat then println usage
  else
    let sub := nth 1 argv EmptyString in
    if String.eqb sub "run" then run (skipn 2 argv)
    else if String.eqb sub "child" then child lookpath (skipn 2 argv)
    else ret tt.

End V1.

(** Only the fixed root of the first version is ever used, and no pivot_root or
    stat is made. *)
Definition v1_root_only (ev : event) : Prop :=
  match ev with
  | ESys (SChroot p) _ => p = "/home/ubuntu"
  | ESys (SPivotRoot _ _) _ => False
  | ESys (SStat _) _ => False
  | _ => True
  end.

(** ** Programs whose effects all satisfy an event predicate *)

(** [m] only appends to the trace, and every event it appends satisfies [P]. *)
Definition only (P : event -> Prop) {A} (m : M A) : Prop :=
  forall os tr, exists new, fst (m os tr) = (tr ++ new)%list /\ Forall P new.


Section Only.
Variable P : event -> Prop.

Lemma only_ret {A} (a : A) : only P (ret a).
Proof. intros os tr. exists []. rewrite app_nil_r. auto. Qed.

Lemma only_exit {A} (c : Z) : only P (@exit A c).
Proof. intros os tr. exists []. rewrite app_nil_r. auto. Qed.

Lemma only_sys (c : syscall) : (forall r, P (ESys c r)) -> only P (sys c).
Proof. intros HP os tr. exists [ESys c (os_sys os tr c)]. auto. Qed.

Lemma only_getwd : (forall r, P (EGetwd r)) -> only P getwd.
Proof. intros HP os tr. exists [EGetwd (os_getwd os tr)]. auto. Qed.

Lemma only_print (s : string) : P (EOut s) -> only P (print s).
Proof. intros HP os tr. exists [EOut s]. auto. Qed.

Lemma only_cmd_run p a f : (forall r, P (ERun p a f r)) -> only P (cmd_run p a f).
Proof. intros HP os tr. eexists. split; [reflexivity | auto]. Qed.

Lemma only_bind {A B} (m : M A) (k : A -> M B) :
  only P m -> (forall a, only P (k a)) -> only P (bind m k).
Proof.
  intros Hm Hk os tr. unfold bind.
  destruct (Hm os tr) as [n1 [E1 F1]].
  destruct (m os tr) as [tr1 [a | c]] eqn:Em; simpl in E1; subst tr1.
  - destruct (Hk a os (tr ++ n1)%list) as [n2 [E2 F2]].
    exists (n1 ++ n2)%list. rewrite E2, app_assoc. split; [reflexivity|].
    apply Forall_app; auto.
  - exists n1. auto.
Qed.
End Only.

Ltac only_step :=
  match goal with
  | |- only _ (bind _ _) =>
      apply only_bind; [ | let x := fresh "x" in intro x;
                           match type of x with
                           | option _ => destruct x
                           | sum _ _ => destruct x
                           | getwd_result => destruct x
                           | _ => idtac
                           end ]
  | |- only _ (ret _) => apply only_ret
  | |- only _ (exit _) => apply only_exit
  | |- only _ (sys _) => apply only_sys; intro; simpl; auto
  | |- only _ getwd => apply only_getwd; intro; simpl; auto
  | |- only _ (print _) => apply only_print; simpl; auto
  | |- only _ (cmd_run _ _ _) => apply only_cmd_run; intro; simpl; auto
  | |- only _ (if ?b then _ else _) => destruct b
  | |- only _ (match ?x with _ => _ end) => destruct x
  | |- only _ (let _ := _ in _) => cbv zeta
  end.

Ltac only_unfold :=
  unfold main, run, child, child_isolate_and_run, pivot_isolate, chroot_isolate,
    abs, validateRootfs, getCmdPath, mountProc, handle, println.

Lemma pivot_isolate_no_mount_run (rootfs : string) : only no_mount_run (pivot_isolate rootfs).
Proof. only_unfold. repeat only_step. Qed.

Lemma chroot_isolate_no_mount_run (rootfs : string) : only no_mount_run (chroot_isolate rootfs).
Proof. only_unfold. repeat only_step. Qed.

Lemma pivot_isolate_no_run (rootfs : string) : only no_run (pivot_isolate rootfs).
Proof. only_unfold. repeat only_step. Qed.

Lemma chroot_isolate_no_run (rootfs : string) : only no_run (chroot_isolate rootfs).
Proof. only_unfold. repeat only_step. Qed.

Lemma pivot_isolate_extends (rootfs : string) : only (fun _ => True) (pivot_isolate rootfs).
Proof. only_unfold. repeat only_step. Qed.

Lemma chroot_isolate_extends (rootfs : string) : only (fun _ => True) (chroot_isolate rootfs).
Proof. only_unfold. repeat only_step. Qed.

Lemma child_isolate_and_run_extends rootfs binPath rest :
  only (fun _ => True) (child_isolate_and_run rootfs binPath rest).
Proof. only_unfold. repeat only_step. Qed.

Lemma main_proc_mount (argv : list string) : only proc_mount (main argv).
Proof. only_unfold. repeat only_step. Qed.

(** ** Helper lemmas *)

Lemma bind_fst_extends {A B} (m : M A) (k : A -> M B) os tr :
  (forall a, only (fun _ => True) (k a)) ->
  exists new, fst (bind m k os tr) = (fst (m os tr) ++ new)%list.
Proof.
  intros Hk. unfold bind. destruct (m os tr) as [t [a | c]].
  - destruct (Hk a os t) as [n [E _]]. exists n. exact E.
  - exists []. rewrite app_nil_r. reflexivity.
Qed.

Lemma bind_ret_l {A B} (m : M A) (k : A -> M B) os tr tr' a :
  m os tr = (tr', Ret a) -> bind m k os tr = k a os tr'.
Proof. intros H. unfold bind. rewrite H. reflexivity. Qed.

Lemma bind_exit_l {A B} (m : M A) (k : A -> M B) os tr tr' c :
  m os tr = (tr', Exit c) -> bind m k os tr = (tr', Exit c).
Proof. intros H. unfold bind. rewrite H. reflexivity. Qed.

(** After a successful [os.Stat], [child] prints the message of [getCmdPath]
    and goes on with the isolation, the mount and the launch. *)
Lemma child_validated os tr0 rootfs cmd0 rest :
  os_sys os tr0 (SStat rootfs) = None ->
  child (rootfs :: cmd0 :: rest) os tr0 =
  child_isolate_and_run rootfs (snd (cmd_path_msg cmd0)) rest os
    (tr0 ++ [ESys (SStat rootfs) None; EOut (fst (cmd_path_msg cmd0))])%list.
Proof.
  intros H. unfold child, validateRootfs, getCmdPath, handle, bind, sys, print, ret.
  rewrite H. rewrite <- app_assoc. reflexivity.
Qed.

(** The first effect of the chroot strategy is the [chroot] call. *)
Lemma chroot_isolate_first os tr rootfs :
  exists r T, fst (chroot_isolate rootfs os tr) = (tr ++ ESys (SChroot rootfs) r :: T)%list.
Proof.
  unfold chroot_isolate, bind, sys, println, print, ret.
  destruct (os_sys os tr (SChroot rootfs)) as [e|]; simpl.
  - eexists; exists []. reflexivity.
  - destruct (os_sys os _ (SChdir "/")); simpl;
      eexists; eexists; rewrite <- !app_assoc; reflexivity.
Qed.

Lemma tail_extends binPath rest :
  forall u : unit, only (fun _ => True)
    (e <- mountProc ;; handle e ;;; r <- cmd_run binPath rest 0 ;; handle r).
Proof. intros _. only_unfold. repeat only_step. Qed.

Lemma handle_extends : forall e, only (fun _ => True) (handle e).
Proof. intros e. only_unfold. repeat only_step. Qed.

(** When pivot_root reports [e], the isolation step prints the fallback
    message and calls the chroot strategy. *)
Lemma isolate_after_pivot_failure os tr rootfs binPath rest trP e :
  pivot_isolate rootfs os tr = (trP, Ret (Some e)) ->
  child_isolate_and_run rootfs binPath rest os tr =
  bind (bind (chroot_isolate rootfs) handle)
       (fun _ => e <- mountProc ;; handle e ;;; r <- cmd_run binPath rest 0 ;; handle r)
       os (trP ++ [EOut (fallback_msg e)])%list.
Proof.
  intros H. unfold child_isolate_and_run. rewrite (bind_ret_l _ _ _ _ _ _ H).
  unfold bind at 1 2. unfold print at 1. reflexivity.
Qed.

(** Case analysis over every kernel answer of a run given in hypothesis [H]. *)
Ltac prog_unfold H :=
  cbv beta iota zeta delta [main run child child_isolate_and_run pivot_isolate
    chroot_isolate abs validateRootfs getCmdPath mountProc handle println bind ret
    sys getwd print exit cmd_run] in H.

Ltac crunch H :=
  repeat (cbv beta iota zeta in H;
          match type of H with
          | context [os_sys ?o ?t ?c] => destruct (os_sys o t c)
          | context [os_getwd ?o ?t] => destruct (os_getwd o t)
          | context [os_run ?o ?t ?p ?a ?f] => destruct (os_run o t p a f)
          | context [is_abs ?p] => destruct (is_abs p)
          | context [Z.eqb ?c 0] => let E := fresh "Ec" in destruct (Z.eqb c 0) eqn:E
          end).

(** Turns [H : (tr ++ ..., o) = (tr ++ new, r)] into equations for [new] and [r]. *)
Ltac trace_eq H :=
  let H1 := fresh "Htr" in
  let H2 := fresh "Hout" in
  injection H as H1 H2;
  rewrite <- ?app_assoc in H1; apply app_inv_head in H1; simpl in H1; subst.

Ltac in_cases :=
  repeat match goal with
  | H : In _ _ |- _ => simpl in H
  | H : _ \/ _ |- _ => destruct H
  | H : False |- _ => destruct H
  | H : ESys _ _ = ESys _ _ |- _ => injection H; clear H; intros; subst
  | H : ERun _ _ _ _ = ERun _ _ _ _ |- _ => injection H; clear H; intros; subst
  | H : _ = _ |- _ => discriminate H
  end.

(** When the pivot_root call itself fails, the holding directory had been
    created by [os.MkdirAll] just before, and nothing removed or detached. *)
Lemma pivot_swap_failure_shape os tr rootfs new r a o e :
  pivot_isolate rootfs os tr = ((tr ++ new)%list, r) ->
  In (ESys (SPivotRoot a o) (Some e)) new ->
  o = join2 a oldRootDir
  /\ In (ESys (SMkdirAll o 448) None) new
  /\ Forall no_removal new
  /\ r = Ret (Some ("pivot_root failed: " ++ e)).
Proof.
  intros H Hp. prog_unfold H. crunch H; trace_eq H; in_cases;
    (split; [reflexivity | split; [simpl; tauto | split; [repeat constructor | reflexivity]]]).
Qed.

(** The trace of the init role after a pivot_root error: the fallback warning,
    then the [chroot] call. *)
Lemma child_fallback_trace os tr0 rootfs cmd0 rest trP e :
  os_sys os tr0 (SStat rootfs) = None ->
  pivot_isolate rootfs os
    (tr0 ++ [ESys (SStat rootfs) None; EOut (fst (cmd_path_msg cmd0))])%list
    = (trP, Ret (Some e)) ->
  exists r T, fst (child (rootfs :: cmd0 :: rest) os tr0)
              = (trP ++ EOut (fallback_msg e) :: ESys (SChroot rootfs) r :: T)%list.
Proof.
  intros Hstat Hpiv.
  rewrite (child_validated _ _ _ _ _ Hstat).
  rewrite (isolate_after_pivot_failure _ _ _ _ _ _ _ Hpiv).
  destruct (bind_fst_extends (bind (chroot_isolate rootfs) handle) _ os
              (trP ++ [EOut (fallback_msg e)])%list
              (tail_extends (snd (cmd_path_msg cmd0)) rest)) as [n1 E1].
  rewrite E1.
  destruct (bind_fst_extends (chroot_isolate rootfs) handle os
              (trP ++ [EOut (fallback_msg e)])%list handle_extends) as [n2 E2].
  rewrite E2.
  destruct (chroot_isolate_first os (trP ++ [EOut (fallback_msg e)])%list rootfs)
    as [r [T E3]].
  rewrite E3. exists r, (T ++ n2 ++ n1)%list.
  rewrite <- !app_assoc. reflexivity.
Qed.

Lemma split_slash_nonempty s : split_slash s <> [].
Proof.
  induction s as [| c r IH]; simpl; [discriminate |].
  destruct (Ascii.eqb c "/"%char); [discriminate |].
  destruct (split_slash r); discriminate.
Qed.

Lemma split_slash_no_slash s : has_slash s = false -> split_slash s = [s].
Proof.
  induction s as [| c r IH]; simpl; [reflexivity |].
  intros H. apply orb_false_iff in H as [Hc Hr].
  rewrite Hc, (IH Hr). reflexivity.
Qed.

Lemma split_slash_slash s : has_slash s = true -> (1 < length (split_slash s))%nat.
Proof.
  induction s as [| c r IH]; simpl; [discriminate |].
  intros H. destruct (Ascii.eqb c "/"%char).
  - simpl. pose proof (split_slash_nonempty r).
    destruct (split_slash r); [contradiction | simpl; lia].
  - simpl in H. specialize (IH H).
    destruct (split_slash r); simpl in *; lia.
Qed.

Lemma cmd_path_msg_slash s :
  has_slash s = true ->
  cmd_path_msg s = ("WARNING! Absolute path resolution for [" ++ s
       ++ "] will be done based on the new rootfs (inside container)." ++ nl, s).
Proof.
  intros H. unfold cmd_path_msg.
  apply split_slash_slash, Nat.ltb_lt in H. rewrite H. reflexivity.
Qed.

Lemma cmd_path_msg_bare s :
  has_slash s = false -> s <> EmptyString -> s <> "." -> s <> ".." ->
  snd (cmd_path_msg s) = "/bin/" ++ s.
Proof.
  intros H H0 H1 H2. unfold cmd_path_msg.
  rewrite (split_slash_no_slash s H). simpl.
  unfold join2, clean. simpl. rewrite (split_slash_no_slash s H). simpl.
  unfold clean_step at 1. simpl.
  apply String.eqb_neq in H0, H1, H2. rewrite H0, H1, H2. reflexivity.
Qed.

(** The launcher's effects: the namespace-creating spawn of itself, then at
    most the printed error. *)
Lemma run_shape os tr args :
  (2 <= length args)%nat ->
  run args os tr =
  ((tr ++ ERun "/proc/self/exe" ("child" :: args) launch_flags
          (os_run os tr "/proc/self/exe" ("child" :: args) launch_flags)
        :: match os_run os tr "/proc/self/exe" ("child" :: args) launch_flags with
           | StartFailed m => [EOut (nl ++ m ++ nl)]
           | Exited c => if (c =? 0)%Z then [] else [EOut (nl ++ ("exit status " ++ itoa c) ++ nl)]
           end)%list,
   match os_run os tr "/proc/self/exe" ("child" :: args) launch_flags with
   | StartFailed _ => Exit 1
   | Exited c => if (c =? 0)%Z then Ret tt else Exit 1
   end).
Proof.
  intros Hlen. unfold run.
  destruct (Nat.ltb_spec (length args) 2); [lia |].
  unfold handle, cmd_run. unfold bind, print, exit, ret. fold launch_flags.
  destruct (os_run os tr "/proc/self/exe" ("child" :: args) launch_flags) as [m | c];
    [| destruct (c =? 0)%Z]; rewrite <- ?app_assoc; reflexivity.
Qed.

(** The exit codes the init role can produce by itself. *)
Lemma child_exit_code os tr args :
  exit_code (snd (child args os tr)) = 0%Z \/ exit_code (snd (child args os tr)) = 1%Z.
Proof.
  destruct (child args os tr) as [t o] eqn:H. simpl.
  destruct args as [| rootfs [| cmd0 rest]];
    [ injection H as _ H; subst; right; reflexivity
    | injection H as _ H; subst; right; reflexivity |].
  prog_unfold H. crunch H; injection H as _ H; subst; simpl; auto.
Qed.



Lemma v1_main_root_only lookpath argv : only v1_root_only (V1.main lookpath argv).
Proof.
  unfold V1.main, V1.run, V1.child, handle, println. cbv zeta. repeat only_step.
Qed.

Ltac in_goal := simpl; solve [repeat (first [left; reflexivity | right])].

(** ** The claims *)

(** C1: whenever the pivot_root strategy returns an error [e] in the init role,
    the next effects are the warning [pivot_root failed: e ... Falling back to
    chroot...], which contains [e], and then the [chroot] call of the legacy
    strategy; nothing is exited before, whatever the root path, the command and
    the kernel's answers. *)
Theorem child_falls_back_to_chroot :
  forall (os : OS) (tr0 : list event) (rootfs cmd0 : string) (rest : list string)
         (trP : list event) (e : string),
    os_sys os tr0 (SStat rootfs) = None ->
    pivot_isolate rootfs os
      (tr0 ++ [ESys (SStat rootfs) None; EOut (fst (cmd_path_msg cmd0))])%list
      = (trP, Ret (Some e)) ->
    (exists pre post, fallback_msg e = pre ++ e ++ post) /\
    exists r T, fst (child (rootfs :: cmd0 :: rest) os tr0)
                = (trP ++ EOut (fallback_msg e) :: ESys (SChroot rootfs) r :: T)%list.
Proof.
  intros os tr0 rootfs cmd0 rest trP e Hstat Hpiv. split.
  - exists "pivot_root failed: ", (nl ++ "Falling back to chroot..." ++ nl).
    reflexivity.
  - exact (child_fallback_trace _ _ _ _ _ _ _ Hstat Hpiv).
Qed.

Lemma child_falls_back_to_chroot_witness :
  os_sys (os_same_fs 0) [] (SStat "/srv/root") = None /\
  (exists pre post, fallback_msg "pivot_root failed: invalid argument"
                    = pre ++ "pivot_root failed: invalid argument" ++ post) /\
  exists r T, fst (child ["/srv/root"; "ls"] (os_same_fs 0) [])
    = ([ESys (SStat "/srv/root") None;
        EOut (fst (cmd_path_msg "ls"));
        ESys (SMkdirAll "/srv/root/.old_root" 448) None;
        ESys (SPivotRoot "/srv/root" "/srv/root/.old_root") (Some "invalid argument")]
       ++ EOut (fallback_msg "pivot_root failed: invalid argument")
          :: ESys (SChroot "/srv/root") r :: T)%list.
Proof.
  split; [reflexivity |].
  apply (child_falls_back_to_chroot (os_same_fs 0) [] "/srv/root" "ls" []); reflexivity.
Defined.

(** C2: when pivot_root and then chroot both return an error in the init role,
    the process prints the chroot error and exits with 1, and none of its
    effects is a mount or the launch of a program. *)
Theorem legacy_failure_exits_without_mount_or_launch :
  forall (os : OS) (tr0 : list event) (rootfs cmd0 : string) (rest : list string)
         (trP trC : list event) (e e2 : string),
    os_sys os tr0 (SStat rootfs) = None ->
    pivot_isolate rootfs os
      (tr0 ++ [ESys (SStat rootfs) None; EOut (fst (cmd_path_msg cmd0))])%list
      = (trP, Ret (Some e)) ->
    chroot_isolate rootfs os (trP ++ [EOut (fallback_msg e)])%list = (trC, Ret (Some e2)) ->
    child (rootfs :: cmd0 :: rest) os tr0 = ((trC ++ [EOut (nl ++ e2 ++ nl)])%list, Exit 1)
    /\ exists new, (trC ++ [EOut (nl ++ e2 ++ nl)])%list = (tr0 ++ new)%list
                   /\ Forall no_mount_run new.
Proof.
  intros os tr0 rootfs cmd0 rest trP trC e e2 Hstat Hpiv Hchr. split.
  - rewrite (child_validated _ _ _ _ _ Hstat).
    rewrite (isolate_after_pivot_failure _ _ _ _ _ _ _ Hpiv).
    apply bind_exit_l. rewrite (bind_ret_l _ _ _ _ _ _ Hchr). reflexivity.
  - destruct (pivot_isolate_no_mount_run rootfs os
                (tr0 ++ [ESys (SStat rootfs) None; EOut (fst (cmd_path_msg cmd0))])%list)
      as [n1 [E1 F1]].
    rewrite Hpiv in E1. simpl in E1.
    destruct (chroot_isolate_no_mount_run rootfs os (trP ++ [EOut (fallback_msg e)])%list)
      as [n2 [E2 F2]].
    rewrite Hchr in E2. simpl in E2. subst trC trP.
    eexists. split.
    + rewrite <- !app_assoc. reflexivity.
    + repeat (apply Forall_app; split); repeat constructor; assumption.
Qed.

Lemma legacy_failure_exits_without_mount_or_launch_witness :
  child ["/srv/root"; "ls"] os_no_root_change []
    = ([ESys (SStat "/srv/root") None;
        EOut (fst (cmd_path_msg "ls"));
        ESys (SMkdirAll "/srv/root/.old_root" 448) None;
        ESys (SPivotRoot "/srv/root" "/srv/root/.old_root") (Some "operation not permitted");
        EOut (fallback_msg "pivot_root failed: operation not permitted");
        ESys (SChroot "/srv/root") (Some "operation not permitted");
        EOut (nl ++ "chroot failed: operation not permitted" ++ nl)], Exit 1).
Proof.
  apply (legacy_failure_exits_without_mount_or_launch os_no_root_change [] "/srv/root" "ls" []
           [ESys (SStat "/srv/root") None;
            EOut (fst (cmd_path_msg "ls"));
            ESys (SMkdirAll "/srv/root/.old_root" 448) None;
            ESys (SPivotRoot "/srv/root" "/srv/root/.old_root") (Some "operation not permitted")]
           [ESys (SStat "/srv/root") None;
            EOut (fst (cmd_path_msg "ls"));
            ESys (SMkdirAll "/srv/root/.old_root" 448) None;
            ESys (SPivotRoot "/srv/root" "/srv/root/.old_root") (Some "operation not permitted");
            EOut (fallback_msg "pivot_root failed: operation not permitted");
            ESys (SChroot "/srv/root") (Some "operation not permitted")]
           "pivot_root failed: operation not permitted"
           "chroot failed: operation not permitted"); reflexivity.
Defined.

(** C8: every mount the program performs, in either role, on any arguments and
    any kernel answers, has source, target and type [proc], flags 0 and empty
    data. *)
Theorem proc_mount_arguments_fixed :
  forall (os : OS) (argv : list string) (s t f : string) (fl : Z) (d : string)
         (r : option string),
    In (ESys (SMount s t f fl d) r) (fst (exec_main os argv)) ->
    s = "proc" /\ t = "proc" /\ f = "proc" /\ fl = 0%Z /\ d = EmptyString.
Proof.
  intros os argv s t f fl d r Hin. unfold exec_main in Hin.
  destruct (main_proc_mount argv os []) as [new [E F]].
  destruct (main argv os []) as [tr o]. simpl in E, Hin. subst tr.
  rewrite Forall_forall in F. exact (F _ Hin).
Qed.

Lemma proc_mount_arguments_fixed_witness :
  In (ESys (SMount "proc" "proc" "proc" 0 EmptyString) None)
     (fst (exec_main os_all_ok ["shp"; "child"; "/srv/root"; "ls"])) /\
  ("proc" = "proc" /\ "proc" = "proc" /\ "proc" = "proc" /\ 0%Z = 0%Z /\ EmptyString = EmptyString).
Proof.
  assert (H : In (ESys (SMount "proc" "proc" "proc" 0 EmptyString) None)
                 (fst (exec_main os_all_ok ["shp"; "child"; "/srv/root"; "ls"]))).
  { vm_compute. repeat (first [left; reflexivity | right]). }
  split; [exact H | exact (proc_mount_arguments_fixed _ _ _ _ _ _ _ _ H)].
Defined.

(** C9: once pivot_root and the chdir to [/] have succeeded, the pivot_root
    strategy reports success whatever the unmount of [/.old_root] and its
    removal return, and each failing cleanup call is followed by its warning. *)
Theorem pivot_cleanup_is_best_effort :
  forall (os : OS) (tr : list event) (rootfs : string) (new : list event)
         (r : outcome (option string)) (a o : string),
  pivot_isolate rootfs os tr = ((tr ++ new)%list, r) ->
  In (ESys (SPivotRoot a o) None) new ->
  In (ESys (SChdir "/") None) new ->
  r = Ret None
  /\ (forall e, In (ESys (SUnmount "/.old_root" MNT_DETACH) (Some e)) new ->
                In (EOut ("Warning: unmounting old root failed: " ++ e ++ nl)) new)
  /\ (forall e, In (ESys (SRemove "/.old_root") (Some e)) new ->
                In (EOut ("Warning: removing old root directory failed: " ++ e ++ nl)) new).
Proof.
  intros os tr rootfs new r a o H Hp Hc. prog_unfold H. crunch H; trace_eq H; in_cases;
    (split; [reflexivity | split; intros e' He; in_cases; simpl; tauto]).
Qed.

Lemma pivot_cleanup_is_best_effort_witness :
  pivot_isolate "/srv/root" os_cleanup_fails [] = (cleanup_failure_trace, Ret None)
  /\ In (EOut ("Warning: removing old root directory failed: "
               ++ "device or resource busy" ++ nl)) cleanup_failure_trace.
Proof.
  split; [reflexivity |].
  refine (proj2 (proj2 (pivot_cleanup_is_best_effort os_cleanup_fails [] "/srv/root"
                          cleanup_failure_trace _ "/srv/root" "/srv/root/.old_root"
                          eq_refl _ _)) "device or resource busy" _);
    unfold cleanup_failure_trace; simpl; tauto.
Defined.

(** C10: when the pivot_root call fails after [os.MkdirAll] created the holding
    directory [.old_root] (mode 0700) inside the new root, no effect of the
    strategy removes or detaches it, and the chroot strategy is called next. *)
Theorem failed_swap_leaves_old_root :
  forall (os : OS) (tr0 : list event) (rootfs cmd0 : string) (rest : list string)
         (newP : list event) (r : outcome (option string)) (a o e : string),
    os_sys os tr0 (SStat rootfs) = None ->
    pivot_isolate rootfs os
      (tr0 ++ [ESys (SStat rootfs) None; EOut (fst (cmd_path_msg cmd0))])%list
      = (((tr0 ++ [ESys (SStat rootfs) None; EOut (fst (cmd_path_msg cmd0))]) ++ newP)%list, r) ->
    In (ESys (SPivotRoot a o) (Some e)) newP ->
    o = join2 a ".old_root"
    /\ In (ESys (SMkdirAll o 448) None) newP
    /\ Forall no_removal newP
    /\ exists r' T, fst (child (rootfs :: cmd0 :: rest) os tr0)
         = ((tr0 ++ [ESys (SStat rootfs) None; EOut (fst (cmd_path_msg cmd0))]) ++ newP
            ++ EOut (fallback_msg ("pivot_root failed: " ++ e))
            :: ESys (SChroot rootfs) r' :: T)%list.
Proof.
  intros os tr0 rootfs cmd0 rest newP r a o e Hstat Hpiv Hin.
  destruct (pivot_swap_failure_shape _ _ _ _ _ _ _ _ Hpiv Hin) as [Ho [Hmk [Hnr Hr]]].
  subst r. split; [exact Ho | split; [exact Hmk | split; [exact Hnr |]]].
  destruct (child_fallback_trace _ _ _ cmd0 rest _ _ Hstat Hpiv) as [r' [T E]].
  exists r', T. rewrite E, <- app_assoc. reflexivity.
Qed.

Lemma failed_swap_leaves_old_root_witness :
  In (ESys (SMkdirAll "/srv/root/.old_root" 448) None)
     [ESys (SMkdirAll "/srv/root/.old_root" 448) None;
      ESys (SPivotRoot "/srv/root" "/srv/root/.old_root") (Some "invalid argument")].
Proof.
  refine (proj1 (proj2 (failed_swap_leaves_old_root (os_same_fs 0) [] "/srv/root" "ls" []
    [ESys (SMkdirAll "/srv/root/.old_root" 448) None;
     ESys (SPivotRoot "/srv/root" "/srv/root/.old_root") (Some "invalid argument")]
    (Ret (Some "pivot_root failed: invalid argument"))
    "/srv/root" "/srv/root/.old_root" "invalid argument" eq_refl eq_refl _))).
  simpl; tauto.
Defined.

(** C3 (as the code has it): the launcher exits with 0 when the spawned init
    process exits with 0, and with 1 when the spawn fails or the init process
    exits with any other status; the init role itself only ever exits with 0
    or 1. *)
Theorem launcher_exit_code :
  (forall (os : OS) (p : string) (args : list string),
     (2 <= length args)%nat ->
     snd (exec_main os (p :: "run" :: args))
     = match os_run os [] "/proc/self/exe" ("child" :: args) launch_flags with
       | StartFailed _ => 1%Z
       | Exited c => if (c =? 0)%Z then 0%Z else 1%Z
       end)
  /\ (forall (os : OS) (p : string) (args : list string),
        snd (exec_main os (p :: "child" :: args)) = 0%Z
        \/ snd (exec_main os (p :: "child" :: args)) = 1%Z).
Proof.
  split.
  - intros os p args Hlen. unfold exec_main, main. cbn -[run child launch_flags]. rewrite (run_shape os [] args Hlen).
    destruct (os_run os [] "/proc/self/exe" ("child" :: args) launch_flags) as [m | c];
      [| destruct (c =? 0)%Z]; reflexivity.
  - intros os p args. unfold exec_main, main. cbn -[run child launch_flags].
    pose proof (child_exit_code os [] args) as H.
    destruct (child args os []) as [t o]. exact H.
Qed.

Lemma launcher_exit_code_witness :
  snd (exec_main (os_status 0) ["shp"; "run"; "/srv/root"; "ls"]) = 0%Z.
Proof.
  rewrite (proj1 launcher_exit_code (os_status 0) "shp" ["/srv/root"; "ls"]);
    [reflexivity | simpl; lia].
Defined.

(** C3 fails: a spawned init process that exits with status 2 (the status of a
    Go runtime fatal error) makes the launcher exit with 1, not 2. *)
Lemma launcher_exit_code_counterexample :
  os_run (os_status 2) [] "/proc/self/exe" ["child"; "/srv/root"; "ls"] launch_flags
    = Exited 2
  /\ snd (exec_main (os_status 2) ["shp"; "run"; "/srv/root"; "ls"]) = 1%Z.
Proof. split; vm_compute; reflexivity. Qed.

(** C4 (as the code has it): the init role runs the resolved command as a
    separate process ([exec.Cmd.Run], no clone flags) and waits for it; once it
    has exited with status [c], the init process resumes: it returns (and so
    exits with 0) when [c] is 0, and otherwise prints [exit status c] and exits
    with 1. *)
Theorem init_runs_target_as_child_process :
  forall (os : OS) (tr0 : list event) (rootfs cmd0 : string) (rest : list string)
         (new : list event) (o : outcome unit) (c : Z),
    child (rootfs :: cmd0 :: rest) os tr0 = ((tr0 ++ new)%list, o) ->
    In (ERun (snd (cmd_path_msg cmd0)) rest 0 (Exited c)) new ->
    (exists pre, new = (pre ++ ERun (snd (cmd_path_msg cmd0)) rest 0 (Exited c)
                        :: (if (c =? 0)%Z then []
                            else [EOut (nl ++ ("exit status " ++ itoa c) ++ nl)]))%list)
    /\ o = (if (c =? 0)%Z then Ret tt else Exit 1).
Proof.
  intros os tr0 rootfs cmd0 rest new o c H Hin.
  prog_unfold H. crunch H; trace_eq H; in_cases;
    rewrite ?Ec; split; try reflexivity;
    match goal with
    | |- exists pre, ?L = (pre ++ ?X :: ?Sf)%list =>
        exists (firstn (length L - (1 + length Sf)) L); reflexivity
    end.
Qed.

Lemma init_runs_target_as_child_process_witness :
  exists pre, fst (child ["/srv/root"; "ls"] (os_status 0) [])
              = (pre ++ [ERun "/bin/ls" [] 0 (Exited 0)])%list.
Proof.
  destruct (init_runs_target_as_child_process (os_status 0) [] "/srv/root" "ls" []
              (fst (child ["/srv/root"; "ls"] (os_status 0) [])) (Ret tt) 0
              eq_refl) as [[pre E] _].
  - vm_compute. repeat (first [left; reflexivity | right]).
  - exists pre. exact E.
Defined.

(** C4 fails: the launch step returns to the init code (which then returns from
    [main]) instead of replacing it, and the init process's exit status is not
    the target's: a target exiting with 7 leaves the init process exiting with 1. *)
Lemma init_image_not_replaced_counterexample :
  child ["/srv/root"; "ls"] (os_status 0) []
    = ([ESys (SStat "/srv/root") None;
        EOut (fst (cmd_path_msg "ls"));
        ESys (SMkdirAll "/srv/root/.old_root" 448) None;
        ESys (SPivotRoot "/srv/root" "/srv/root/.old_root") None;
        ESys (SChdir "/") None;
        ESys (SUnmount "/.old_root" MNT_DETACH) None;
        ESys (SRemove "/.old_root") None;
        EOut ("Successfully using pivot_root" ++ nl);
        ESys (SMount "proc" "proc" "proc" 0 EmptyString) None;
        ERun "/bin/ls" [] 0 (Exited 0)], Ret tt)
  /\ snd (exec_main (os_status 7) ["shp"; "child"; "/srv/root"; "ls"]) = 1%Z.
Proof. split; vm_compute; reflexivity. Qed.

(** C5 (as the code has it): in the init role the [os.Stat] of the root path is
    the first effect, and a failing one makes the process print the error and
    exit with 1 before any isolation call, mount or launch; the launcher does
    not validate the root path at all: its first effect is the spawn that
    requests the new namespaces, followed at most by printed output. *)
Theorem validation_order :
  (forall (os : OS) (tr0 : list event) (rootfs cmd0 : string) (rest : list string)
          (m : string),
     os_sys os tr0 (SStat rootfs) = Some m ->
     child (rootfs :: cmd0 :: rest) os tr0
     = ((tr0 ++ [ESys (SStat rootfs) (Some m);
                 EOut (nl ++ ("rootfs path does not exist: " ++ rootfs ++ ": " ++ m) ++ nl)])%list,
        Exit 1))
  /\ (forall (os : OS) (tr0 : list event) (rootfs cmd0 : string) (rest : list string),
        exists r T, fst (child (rootfs :: cmd0 :: rest) os tr0)
                    = (tr0 ++ ESys (SStat rootfs) r :: T)%list)
  /\ (forall (os : OS) (tr : list event) (args : list string),
        (2 <= length args)%nat ->
        exists r T, fst (run args os tr)
                    = (tr ++ ERun "/proc/self/exe" ("child" :: args) launch_flags r :: T)%list
                    /\ Forall (fun ev => exists s, ev = EOut s) T).
Proof.
  assert (Hfail : forall (os : OS) tr0 rootfs cmd0 rest m,
     os_sys os tr0 (SStat rootfs) = Some m ->
     child (rootfs :: cmd0 :: rest) os tr0
     = ((tr0 ++ [ESys (SStat rootfs) (Some m);
                 EOut (nl ++ ("rootfs path does not exist: " ++ rootfs ++ ": " ++ m) ++ nl)])%list,
        Exit 1)).
  { intros os tr0 rootfs cmd0 rest m H.
    unfold child, validateRootfs, handle. unfold bind, sys, print, exit, ret.
    rewrite H. rewrite <- app_assoc. reflexivity. }
  split; [exact Hfail | split].
  - intros os tr0 rootfs cmd0 rest.
    destruct (os_sys os tr0 (SStat rootfs)) as [m |] eqn:H.
    + rewrite (Hfail _ _ _ _ _ _ H). do 2 eexists. reflexivity.
    + rewrite (child_validated _ _ _ _ _ H).
      destruct (child_isolate_and_run_extends rootfs (snd (cmd_path_msg cmd0)) rest os
                  (tr0 ++ [ESys (SStat rootfs) None; EOut (fst (cmd_path_msg cmd0))])%list)
        as [n [E _]].
      rewrite E, <- app_assoc. do 2 eexists. reflexivity.
  - intros os tr args Hlen. rewrite (run_shape os tr args Hlen). simpl fst.
    destruct (os_run os tr "/proc/self/exe" ("child" :: args) launch_flags) as [m | c];
      [| destruct (c =? 0)%Z]; do 2 eexists; (split; [reflexivity |]);
      repeat constructor; eexists; reflexivity.
Qed.

Lemma validation_order_witness :
  child ["/does-not-exist"; "/bin/true"] (os_missing_root 0) []
  = ([ESys (SStat "/does-not-exist") (Some "stat /does-not-exist: no such file or directory");
      EOut (nl ++ ("rootfs path does not exist: " ++ "/does-not-exist" ++ ": "
                   ++ "stat /does-not-exist: no such file or directory") ++ nl)], Exit 1).
Proof.
  apply (proj1 validation_order (os_missing_root 0) [] "/does-not-exist" "/bin/true" []).
  reflexivity.
Defined.

(** C5 fails: [shp run /does-not-exist /bin/true] spawns the init process with
    the namespace flags without any check of the root path; only that spawned
    process, inside the new namespaces, stats the path and exits with 1. *)
Lemma validation_after_namespaces_counterexample :
  exec_main (os_missing_root 1) ["shp"; "run"; "/does-not-exist"; "/bin/true"]
  = ([ERun "/proc/self/exe" ["child"; "/does-not-exist"; "/bin/true"] launch_flags (Exited 1);
      EOut (nl ++ "exit status 1" ++ nl)], 1%Z)
  /\ child ["/does-not-exist"; "/bin/true"] (os_missing_root 1)
       [ERun "/proc/self/exe" ["child"; "/does-not-exist"; "/bin/true"] launch_flags (Exited 1)]
     = ([ERun "/proc/self/exe" ["child"; "/does-not-exist"; "/bin/true"] launch_flags (Exited 1);
         ESys (SStat "/does-not-exist") (Some "stat /does-not-exist: no such file or directory");
         EOut (nl ++ ("rootfs path does not exist: " ++ "/does-not-exist" ++ ": "
                      ++ "stat /does-not-exist: no such file or directory") ++ nl)], Exit 1).
Proof. split; vm_compute; reflexivity. Qed.

(** C6 (as the code has it): after validation the init role prints the message
    of [getCmdPath] and only then starts the isolation, with the path it
    returns; a command holding [/] is returned unchanged with the warning about
    resolution in the new root; any other command [name] becomes
    [filepath.Join("/bin/", name)], which is [/bin/name] except for the empty
    name and [.] (both [/bin]) and [..] ([/]). *)
Theorem cmd_path_resolution :
  (forall (os : OS) (tr0 : list event) (rootfs cmd0 : string) (rest : list string),
     os_sys os tr0 (SStat rootfs) = None ->
     child (rootfs :: cmd0 :: rest) os tr0 =
     child_isolate_and_run rootfs (snd (cmd_path_msg cmd0)) rest os
       (tr0 ++ [ESys (SStat rootfs) None; EOut (fst (cmd_path_msg cmd0))])%list)
  /\ (forall s : string, has_slash s = true ->
        cmd_path_msg s = ("WARNING! Absolute path resolution for [" ++ s
          ++ "] will be done based on the new rootfs (inside container)." ++ nl, s))
  /\ (forall s : string, has_slash s = false -> s <> EmptyString -> s <> "." -> s <> ".." ->
        snd (cmd_path_msg s) = "/bin/" ++ s)
  /\ snd (cmd_path_msg EmptyString) = "/bin"
  /\ snd (cmd_path_msg ".") = "/bin"
  /\ snd (cmd_path_msg "..") = "/".
Proof.
  split; [exact child_validated |].
  split; [exact cmd_path_msg_slash |].
  split; [exact cmd_path_msg_bare |].
  repeat split; reflexivity.
Qed.

Lemma cmd_path_resolution_witness :
  snd (cmd_path_msg "bash") = "/bin/bash"
  /\ snd (cmd_path_msg "usr/bin/env") = "usr/bin/env".
Proof.
  split.
  - apply (proj1 (proj2 (proj2 cmd_path_resolution)) "bash");
      [reflexivity | discriminate | discriminate | discriminate].
  - rewrite (proj1 (proj2 cmd_path_resolution) "usr/bin/env"); reflexivity.
Defined.

(** C6 fails: the bare name [..] is rewritten to [/], not [/bin/..], and the
    init role launches [/]. *)
Lemma cmd_path_dotdot_counterexample :
  snd (cmd_path_msg "..") = "/"
  /\ snd (cmd_path_msg "..") <> "/bin/" ++ ".."
  /\ In (ERun "/" [] 0 (Exited 0))
        (fst (exec_main os_all_ok ["shp"; "child"; "/srv/root"; ".."])).
Proof.
  split; [reflexivity |]. split; [discriminate |].
  vm_compute. repeat (first [left; reflexivity | right]).
Qed.

(** C7: with no subcommand, or with one that is neither [run] nor [child],
    [main] prints the usage text and returns, so the process exits with 0. *)
Theorem main_usage_exit_status :
  (forall (os : OS) (p : string), exec_main os [p] = ([EOut (usage_main ++ nl)], 0%Z))
  /\ (forall (os : OS) (p sub : string) (rest : list string),
        sub <> "run" -> sub <> "child" ->
        exec_main os (p :: sub :: rest) = ([EOut (usage_main ++ nl)], 0%Z)).
Proof.
  split; [reflexivity |].
  intros os p sub rest Hr Hc. unfold exec_main, main. cbn -[run child].
  apply String.eqb_neq in Hr, Hc. rewrite Hr, Hc. reflexivity.
Qed.

Lemma main_usage_exit_status_witness :
  exec_main os_all_ok ["shp"; "foo"] = ([EOut (usage_main ++ nl)], 0%Z).
Proof.
  apply (proj2 main_usage_exit_status os_all_ok "shp" "foo" []); discriminate.
Defined.

(** ** Further properties of shp.go *)

(** X1: the path [getCmdPath] returns always contains a separator, and for a
    command without separator it is absolute. *)
Theorem cmd_path_has_separator :
  forall s : string,
    has_slash (snd (cmd_path_msg s)) = true
    /\ (has_slash s = false -> is_abs (snd (cmd_path_msg s)) = true).
Proof.
  intros s. unfold cmd_path_msg.
  destruct (1 <? length (split_slash s))%nat eqn:E.
  - split; [| intros Hs; rewrite (split_slash_no_slash s Hs) in E; discriminate].
    destruct (has_slash s) eqn:Hs; [exact Hs |].
    rewrite (split_slash_no_slash s Hs) in E. discriminate.
  - unfold snd, join2, clean. simpl. split; [| intros _]; reflexivity.
Qed.

(** X2: the chroot strategy calls chdir only after a successful chroot: a
    failing chroot is its only call and is reported as [chroot failed: e]; it
    reports success exactly when both chroot and chdir succeeded. *)
Theorem chroot_isolate_steps :
  forall (os : OS) (tr : list event) (rootfs : string) (new : list event)
         (r : outcome (option string)),
    chroot_isolate rootfs os tr = ((tr ++ new)%list, r) ->
    (forall e, In (ESys (SChroot rootfs) (Some e)) new ->
               new = [ESys (SChroot rootfs) (Some e)] /\ r = Ret (Some ("chroot failed: " ++ e)))
    /\ (r = Ret None <-> In (ESys (SChroot rootfs) None) new /\ In (ESys (SChdir "/") None) new).
Proof.
  intros os tr rootfs new r H. prog_unfold H. crunch H; trace_eq H;
    (split; [intros e' He; in_cases; split; reflexivity |]);
    (split; [intros Hr; try discriminate Hr; split; in_goal
            | intros [H1 H2]; in_cases; reflexivity]).
Qed.

Lemma chroot_isolate_steps_witness :
  ESys (SChroot "/srv/root") (Some "operation not permitted") :: []
  = [ESys (SChroot "/srv/root") (Some "operation not permitted")].
Proof.
  exact (proj1 (proj1 (chroot_isolate_steps os_no_root_change [] "/srv/root"
    [ESys (SChroot "/srv/root") (Some "operation not permitted")]
    (Ret (Some "chroot failed: operation not permitted")) eq_refl)
    "operation not permitted" (or_introl eq_refl))).
Defined.

(** X3: the pivot_root strategy takes its steps in order, each only after the
    previous one succeeded: pivot_root is called with the holding directory
    [<new root>/.old_root] only after [os.MkdirAll] created it; the cleanup
    calls are made only after pivot_root and the chdir to [/] succeeded; and it
    reports success only when those two succeeded. *)
Theorem pivot_isolate_steps :
  forall (os : OS) (tr : list event) (rootfs : string) (new : list event)
         (r : outcome (option string)),
    pivot_isolate rootfs os tr = ((tr ++ new)%list, r) ->
    (forall a o e, In (ESys (SPivotRoot a o) e) new ->
                   o = join2 a ".old_root" /\ In (ESys (SMkdirAll o 448) None) new)
    /\ (forall t f e, In (ESys (SUnmount t f) e) new ->
          exists a o, In (ESys (SPivotRoot a o) None) new /\ In (ESys (SChdir "/") None) new)
    /\ (forall p e, In (ESys (SRemove p) e) new ->
          exists a o, In (ESys (SPivotRoot a o) None) new /\ In (ESys (SChdir "/") None) new)
    /\ (r = Ret None ->
          exists a o, In (ESys (SPivotRoot a o) None) new /\ In (ESys (SChdir "/") None) new).
Proof.
  intros os tr rootfs new r H. prog_unfold H. crunch H; trace_eq H;
    repeat split; intros; in_cases;
    try discriminate;
    first [ reflexivity | in_goal | do 2 eexists; split; in_goal ].
Qed.

Lemma pivot_isolate_steps_witness :
  "/srv/root/.old_root" = join2 "/srv/root" ".old_root".
Proof.
  refine (proj1 (proj1 (pivot_isolate_steps (os_same_fs 0) [] "/srv/root"
    [ESys (SMkdirAll "/srv/root/.old_root" 448) None;
     ESys (SPivotRoot "/srv/root" "/srv/root/.old_root") (Some "invalid argument")]
    (Ret (Some "pivot_root failed: invalid argument")) eq_refl)
    "/srv/root" "/srv/root/.old_root" (Some "invalid argument") _)).
  in_goal.
Defined.

(** X4: the new root given to pivot_root is [filepath.Abs] of the root path:
    for an absolute path it is the cleaned path and the working directory is
    never read; for a relative one it is the working directory joined with the
    path. *)
Theorem pivot_new_root_is_abs :
  forall (os : OS) (tr : list event) (rootfs : string) (new : list event)
         (r : outcome (option string)) (a o : string) (e : option string),
    pivot_isolate rootfs os tr = ((tr ++ new)%list, r) ->
    In (ESys (SPivotRoot a o) e) new ->
    (is_abs rootfs = true -> a = clean rootfs /\ forall g, ~ In (EGetwd g) new)
    /\ (is_abs rootfs = false -> exists d, os_getwd os tr = GOk d /\ a = join2 d rootfs).
Proof.
  intros os tr rootfs new r a o e H Hin. prog_unfold H.
  destruct (is_abs rootfs) eqn:Ha.
  - crunch H; trace_eq H; in_cases;
      (split; [intros _; split; [reflexivity | intros g Hg; in_cases] | discriminate]).
  - destruct (os_getwd os tr) as [d | ge] eqn:Eg; crunch H; trace_eq H; in_cases;
      (split; [discriminate | intros _; exists d; split; reflexivity]).
Qed.

Lemma pivot_new_root_is_abs_witness :
  exists d, os_getwd (os_same_fs 0) [] = GOk d /\ "/home/user/srv" = join2 d "srv".
Proof.
  refine (proj2 (pivot_new_root_is_abs (os_same_fs 0) [] "srv"
    [EGetwd (GOk "/home/user");
     ESys (SMkdirAll "/home/user/srv/.old_root" 448) None;
     ESys (SPivotRoot "/home/user/srv" "/home/user/srv/.old_root") (Some "invalid argument")]
    (Ret (Some "pivot_root failed: invalid argument"))
    "/home/user/srv" "/home/user/srv/.old_root" (Some "invalid argument") eq_refl _) eq_refl).
  in_goal.
Defined.

(** X5: neither isolation strategy ever ends the process: whatever the kernel
    answers, both return to their caller, with [nil] or an error. *)
Theorem isolators_never_exit :
  forall (os : OS) (tr : list event) (rootfs : string),
    (exists r, snd (pivot_isolate rootfs os tr) = Ret r)
    /\ (exists r, snd (chroot_isolate rootfs os tr) = Ret r).
Proof.
  intros os tr rootfs. split.
  - destruct (pivot_isolate rootfs os tr) as [t o] eqn:H. prog_unfold H.
    crunch H; injection H as _ H; subst; eexists; reflexivity.
  - destruct (chroot_isolate rootfs os tr) as [t o] eqn:H. prog_unfold H.
    crunch H; injection H as _ H; subst; eexists; reflexivity.
Qed.



(** X7: the init role launches the target only after the procfs mount
    succeeded, and mounts only after the root path was found and one isolation
    strategy succeeded (pivot_root or chroot, and the chdir to [/]). *)
Theorem child_step_order :
  forall (os : OS) (tr0 : list event) (args : list string) (new : list event)
         (o : outcome unit),
    child args os tr0 = ((tr0 ++ new)%list, o) ->
    (forall p a f r, In (ERun p a f r) new ->
       In (ESys (SMount "proc" "proc" "proc" 0 EmptyString) None) new)
    /\ (forall s t fs fl d r, In (ESys (SMount s t fs fl d) r) new ->
          (exists p, In (ESys (SStat p) None) new)
          /\ In (ESys (SChdir "/") None) new
          /\ ((exists a o', In (ESys (SPivotRoot a o') None) new)
              \/ (exists p, In (ESys (SChroot p) None) new))).
Proof.
  intros os tr0 args new o H.
  destruct args as [| rootfs [| cmd0 rest]];
    [ injection H as H _; rewrite <- ?app_assoc in H; apply app_inv_head in H; subst;
      split; intros; in_cases .. |].
  prog_unfold H. crunch H; trace_eq H;
    split; intros; in_cases;
    first [ in_goal
          | split; [eexists; in_goal | split; [in_goal | left; do 2 eexists; in_goal]]
          | split; [eexists; in_goal | split; [in_goal | right; eexists; in_goal]] ].
Qed.

Lemma child_step_order_witness :
  In (ESys (SMount "proc" "proc" "proc" 0 EmptyString) None)
     (fst (child ["/srv/root"; "ls"] os_all_ok [])).
Proof.
  eapply (proj1 (child_step_order os_all_ok [] ["/srv/root"; "ls"]
    (fst (child ["/srv/root"; "ls"] os_all_ok []))
    (snd (child ["/srv/root"; "ls"] os_all_ok [])) _)).
  vm_compute. in_goal.
  Unshelve. vm_compute. reflexivity.
Defined.


(** X9: the first version only ever changes root into the fixed directory
    [/home/ubuntu]: whatever its arguments, it never calls chroot with another
    path, never calls pivot_root and never checks a root path. *)
Theorem v1_fixed_root :
  forall (lookpath : string -> string + string) (argv : list string) (os : OS)
         (tr : list event) (new : list event) (o : outcome unit),
    V1.main lookpath argv os tr = ((tr ++ new)%list, o) ->
    Forall v1_root_only new.
Proof.
  intros lookpath argv os tr new o H.
  destruct (v1_main_root_only lookpath argv os tr) as [new' [Hf Hp]].
  rewrite H in Hf. simpl in Hf. apply app_inv_head in Hf. subst. exact Hp.
Qed.

Lemma v1_fixed_root_witness :
  Forall v1_root_only
    [ESys (SChroot "/home/ubuntu") None; ESys (SChdir "/") None;
     ESys (SMount "proc" "proc" "proc" 0 EmptyString) None;
     ERun "/bin/ls" [] 0 (Exited 0)].
Proof.
  exact (v1_fixed_root (fun s => inl ("/bin/" ++ s)) ["shp"; "child"; "ls"] os_all_ok []
    [ESys (SChroot "/home/ubuntu") None; ESys (SChdir "/") None;
     ESys (SMount "proc" "proc" "proc" 0 EmptyString) None;
     ERun "/bin/ls" [] 0 (Exited 0)] (Ret tt) eq_refl).
Defined.




(** X12: the first version starts the target only after chroot into
    [/home/ubuntu], the chdir to [/] and the procfs mount all succeeded; it
    starts it without new namespaces, with the remaining arguments, at the path
    that [exec.Command] resolved before the chroot. *)
Theorem v1_launch_order :
  forall (lookpath : string -> string + string) (args : list string) (os : OS)
         (tr : list event) (new : list event) (o : outcome unit)
         (p : string) (a : list string) (f : Z) (r : run_result),
    V1.child lookpath args os tr = ((tr ++ new)%list, o) ->
    In (ERun p a f r) new ->
    f = 0%Z /\ a = tl args /\ V1.command_path lookpath (hd EmptyString args) = inl p
    /\ In (ESys (SChroot "/home/ubuntu") None) new
    /\ In (ESys (SChdir "/") None) new
    /\ In (ESys (SMount "proc" "proc" "proc" 0 EmptyString) None) new.
Proof.
  intros lookpath args os tr new o p a f r H Hin.
  destruct args as [| name rest].
  - injection H as H _. rewrite <- (app_nil_r tr) in H at 1.
    apply app_inv_head in H. subst. destruct Hin.
  - unfold V1.child in H. cbv zeta in H.
    destruct (V1.command_path lookpath name) as [path | err] eqn:Ecp;
      cbv beta iota delta [handle bind ret sys print exit cmd_run] in H;
      crunch H; trace_eq H; in_cases;
      repeat split; try reflexivity; try exact Ecp; in_goal.
Qed.

Lemma v1_launch_order_witness :
  In (ESys (SMount "proc" "proc" "proc" 0 EmptyString) None)
     (fst (V1.child (fun s => inl ("/bin/" ++ s)) ["ls"] os_all_ok [])).
Proof.
  eapply (v1_launch_order (fun s => inl ("/bin/" ++ s)) ["ls"] os_all_ok []
    (fst (V1.child (fun s => inl ("/bin/" ++ s)) ["ls"] os_all_ok []))
    (snd (V1.child (fun s => inl ("/bin/" ++ s)) ["ls"] os_all_ok [])) _ _ _ _ _).
  vm_compute. in_goal.
  Unshelve. vm_compute. reflexivity.
Defined.

Lemma cmd_path_has_separator_witness :
  is_abs (snd (cmd_path_msg "ls")) = true.
Proof. exact (proj2 (cmd_path_has_separator "ls") eq_refl). Defined.
